(** * The document ingestion service ([src/services/documentService.ts])

    [DocumentService] validates an uploaded file, asks the document
    processor for its chunks, the embedding manager for one vector per
    chunk, and the vector store to persist one record per chunk; it reports
    the run as a [DocumentStats].

    The three collaborators are other modules of the repository.  Their
    methods are asynchronous and may reject, so the service is embedded as a
    program over the collaborators' calls ([Prog]), and a run of such a
    program against an arbitrary implementation of the collaborators
    ([Collaborators]) yields its outcome, the final state of the outside
    world and the ordered list of calls it made. *)

From Stdlib Require Import ZArith Ascii String PrimFloat Uint63 Lia.
From stdpp Require Import base list strings gmap pretty.

Open Scope string_scope.

(** ** Data model *)

(** The fields of a DOM [File] that the pipeline reads.  [content] stands
    for the bytes of the blob; only the parser looks at them. *)
Record File := {
  name : string;
  size : Z;
  type : string;
  content : string
}.

Inductive Status := Pending | Processing | Completed | Error.

(** [interface DocumentStats]; the optional [error] is [None] when the
    property is absent or [undefined]. *)
Record DocumentStats := {
  fileName : string;
  fileSize : Z;
  totalChunks : nat;
  processingTime : Z;
  status : Status;
  error : option string
}.

(** [interface ProcessingConfig]. *)
Record ProcessingConfig := {
  chunkSize : Z;
  overlapSize : Z;
  model : string
}.

(** The second argument of [processDocument]. *)
Record ChunkOptions := {
  opt_chunkSize : Z;
  opt_overlapSize : Z
}.

(** What [processDocument] resolves to, as far as the service reads it:
    [textChunks.chunks], which may be missing. *)
Record ProcessedDocument := {
  chunks : option (list string)
}.

(** An embedding is an array of JavaScript numbers. *)
Definition EmbeddingVector := list float.

Record Metadata := {
  source : string;
  index : nat
}.

Record Payload := {
  text : string;
  metadata : Metadata
}.

(** One element of [vectorDocs].  [vector] is [vectors[index]], which is
    [undefined] ([None]) past the end of [vectors]. *)
Record VectorRecord := {
  id : string;
  vector : option EmbeddingVector;
  payload : Payload
}.

(** ** Exceptions *)

(** The two values that have no properties at all. *)
Inductive NullishValue := JsNull | JsUndefined.

(** A thrown value, as far as the [catch] block can tell values apart: it
    only reads [error.message]. *)
Inductive Thrown :=
| ErrorObject (message : string)  (* [new Error(message)], or a subclass *)
| NoMessage                       (* neither null nor undefined, and no [message] *)
| Nullish (v : NullishValue).     (* [null] or [undefined] *)

(** How a promise settles. *)
Inductive Outcome (A : Type) :=
| Resolved (a : A)
| Rejected (e : Thrown).
Arguments Resolved {A} a.
Arguments Rejected {A} e.

(** ** The collaborators *)

(** [new EmbeddingManager(apiKey, baseURL, model)]: the object remembers the
    three constructor arguments. *)
Record EmbeddingManager := {
  apiKey : string;
  baseURL : string;
  modelName : string
}.

(** [new DocumentProcessor()] and [new VectorStore()] take no argument. *)
Inductive DocumentProcessor := new_DocumentProcessor.
Inductive VectorStore := new_VectorStore.

(** The private fields of [DocumentService]. *)
Record DocumentService := {
  documentProcessor : DocumentProcessor;
  embeddingManager : EmbeddingManager;
  vectorStore : VectorStore
}.

(** The calls the service makes on the outside world. *)
Inductive Event :=
| ProcessDocument (p : DocumentProcessor) (file : File) (options : ChunkOptions)
| EmbedDocuments (m : EmbeddingManager) (texts : list string)
| StoreVectors (s : VectorStore) (docs : list VectorRecord)
| GetDocumentStats (s : VectorStore) (fileName : string)
| ListDocuments (s : VectorStore)
| DateNow.

(** The type of the value a call resolves to. *)
Definition Response (ev : Event) : Type :=
  match ev with
  | ProcessDocument _ _ _ => ProcessedDocument
  | EmbedDocuments _ _ => list EmbeddingVector
  | StoreVectors _ _ => unit
  | GetDocumentStats _ _ => option DocumentStats
  | ListDocuments _ => list string
  | DateNow => Z
  end.

(** An implementation of the collaborators over a state [World] of the
    outside world (the vector database, the embedding provider, the clock).
    Every method may resolve or reject, and may change the world;
    [Date.now()] only reads the clock. *)
Record Collaborators (World : Type) := {
  processDocument :
    DocumentProcessor -> File -> ChunkOptions -> World -> Outcome ProcessedDocument * World;
  embedDocuments :
    EmbeddingManager -> list string -> World -> Outcome (list EmbeddingVector) * World;
  storeVectors :
    VectorStore -> list VectorRecord -> World -> Outcome unit * World;
  vs_getDocumentStats :
    VectorStore -> string -> World -> Outcome (option DocumentStats) * World;
  vs_listDocuments :
    VectorStore -> World -> Outcome (list string) * World;
  Date_now : World -> Z
}.
Arguments processDocument {World} _ _ _ _ _.
Arguments embedDocuments {World} _ _ _ _.
Arguments storeVectors {World} _ _ _ _.
Arguments vs_getDocumentStats {World} _ _ _ _.
Arguments vs_listDocuments {World} _ _ _.
Arguments Date_now {World} _ _.

Definition handle {World} (sys : Collaborators World) (ev : Event)
  : World -> Outcome (Response ev) * World :=
  match ev as e return World -> Outcome (Response e) * World with
  | ProcessDocument p f o => processDocument sys p f o
  | EmbedDocuments m ts => embedDocuments sys m ts
  | StoreVectors s docs => storeVectors sys s docs
  | GetDocumentStats s n => vs_getDocumentStats sys s n
  | ListDocuments s => vs_listDocuments sys s
  | DateNow => fun w => (Resolved (Date_now sys w), w)
  end.

(** ** Programs over the collaborators *)

(** An [async] function body: it returns, throws, or awaits a call and goes
    on with the way the call settled. *)
Inductive Prog (A : Type) : Type :=
| Ret (a : A)
| Throw (e : Thrown)
| Await (ev : Event) (k : Outcome (Response ev) -> Prog A).
Arguments Ret {A} a.
Arguments Throw {A} e.
Arguments Await {A} ev k.

Fixpoint bind {A B} (p : Prog A) (f : A -> Prog B) : Prog B :=
  match p with
  | Ret a => f a
  | Throw e => Throw e
  | Await ev k => Await ev (fun r => bind (k r) f)
  end.

(** [try { p } catch (error) { h error }]. *)
Fixpoint try_catch {A} (p : Prog A) (h : Thrown -> Prog A) : Prog A :=
  match p with
  | Ret a => Ret a
  | Throw e => h e
  | Await ev k => Await ev (fun r => try_catch (k r) h)
  end.

(** [await call]: a rejection is rethrown at the [await]. *)
Definition await (ev : Event) : Prog (Response ev) :=
  Await ev (fun r => match r with Resolved x => Ret x | Rejected e => Throw e end).

Notation "x <- p ;; q" := (bind p (fun x => q))
  (at level 100, p at next level, right associativity).

(** A finished run: how the promise settled, the world it left, and the
    calls made, first to last. *)
Record Run (World A : Type) := {
  outcome : Outcome A;
  final : World;
  calls : list Event
}.
Arguments outcome {World A} _.
Arguments final {World A} _.
Arguments calls {World A} _.

Fixpoint run {World A} (sys : Collaborators World) (p : Prog A) (w : World)
  : Run World A :=
  match p with
  | Ret a => {| outcome := Resolved a; final := w; calls := [] |}
  | Throw e => {| outcome := Rejected e; final := w; calls := [] |}
  | Await ev k =>
      let '(r, w') := handle sys ev w in
      let rest := run sys (k r) w' in
      {| outcome := outcome rest; final := final rest; calls := ev :: calls rest |}
  end.

(** ** The service *)

(** [process.env]: a variable is a string or unset. *)
Definition Env := gmap string string.

(** [v || d] for a string or [undefined] [v]: the empty string is falsy. *)
Definition or_default (v : option string) (d : string) : string :=
  match v with
  | Some s => if String.eqb s "" then d else s
  | None => d
  end.

(** The constructor, run in the environment [env]. *)
Definition new_DocumentService (env : Env) : DocumentService :=
  {| documentProcessor := new_DocumentProcessor;
     embeddingManager :=
       {| apiKey := or_default (env !! "DEEPSEEK_API_KEY") "mock-api-key";
          baseURL := or_default (env !! "DEEPSEEK_API_BASE") "https://api.deepseek.com";
          modelName := or_default (env !! "EMBEDDING_MODEL") "mock-embedding-model" |};
     vectorStore := new_VectorStore |}.

Definition allowedTypes : list string :=
  [ "application/pdf";
    "text/plain";
    "text/markdown";
    "application/msword";
    "application/vnd.openxmlformats-officedocument.wordprocessingml.document" ].

(** [{ chunkSize: config.chunkSize, overlapSize: config.overlapSize }]. *)
Definition chunkOptions_of (config : ProcessingConfig) : ChunkOptions :=
  {| opt_chunkSize := chunkSize config; opt_overlapSize := overlapSize config |}.

(** [allowedTypes.includes(file.type)]. *)
Definition validateFile (file : File) : bool :=
  existsb (String.eqb (type file)) allowedTypes.

Definition unsupported_format : string := "不支持的文件格式".

(** [textChunks.chunks || []]: an array, even an empty one, is truthy. *)
Definition textArray_of (textChunks : ProcessedDocument) : list string :=
  match chunks textChunks with
  | Some a => a
  | None => []
  end.

(** The callback of [textArray.map]. *)
Definition vectorDoc (file : File) (vectors : list EmbeddingVector)
    (index : nat) (text : string) : VectorRecord :=
  {| id := name file +:+ "-" +:+ pretty index;
     vector := vectors !! index;
     payload := {| text := text;
                   metadata := {| source := name file; index := index |} |} |}.

Definition vectorDocs_of (file : File) (textArray : list string)
    (vectors : list EmbeddingVector) : list VectorRecord :=
  imap (vectorDoc file vectors) textArray.

(** The [try] block of [uploadDocument]. *)
Definition uploadDocument_try (this : DocumentService) (file : File)
    (config : ProcessingConfig) : Prog DocumentStats :=
  _ <- (if negb (validateFile file)
        then Throw (ErrorObject unsupported_format)
        else Ret tt) ;;
  textChunks <- await (ProcessDocument (documentProcessor this) file
                         (chunkOptions_of config)) ;;
  let textArray := textArray_of textChunks in
  vectors <- await (EmbedDocuments (embeddingManager this) textArray) ;;
  let vectorDocs := vectorDocs_of file textArray vectors in
  _ <- await (StoreVectors (vectorStore this) vectorDocs) ;;
  now <- await DateNow ;;
  Ret {| fileName := name file;
         fileSize := size file;
         totalChunks := length textArray;
         processingTime := now;
         status := Completed;
         error := None |}.

(** The message of the [TypeError] raised by reading [message] of [null] or
    of [undefined].  The text is the engine's, not the program's; it is
    V8's here, and no statement below depends on it. *)
Definition nullish_message (v : NullishValue) : string :=
  "Cannot read properties of "
    +:+ match v with JsNull => "null" | JsUndefined => "undefined" end
    +:+ " (reading 'message')".

(** [error.message]. *)
Definition message_of (e : Thrown) : Prog (option string) :=
  match e with
  | ErrorObject m => Ret (Some m)
  | NoMessage => Ret None
  | Nullish v => Throw (ErrorObject (nullish_message v))
  end.

(** The [catch] block of [uploadDocument]; the properties of the object
    literal are evaluated in the order they are written. *)
Definition uploadDocument_catch (file : File) (e : Thrown) : Prog DocumentStats :=
  now <- await DateNow ;;
  msg <- message_of e ;;
  Ret {| fileName := name file;
         fileSize := size file;
         totalChunks := 0;
         processingTime := now;
         status := Error;
         error := msg |}.

Definition uploadDocument (this : DocumentService) (file : File)
    (config : ProcessingConfig) : Prog DocumentStats :=
  try_catch (uploadDocument_try this file config) (uploadDocument_catch file).

Definition getDocumentStats (this : DocumentService) (fileName : string)
  : Prog (option DocumentStats) :=
  await (GetDocumentStats (vectorStore this) fileName).

Definition listDocuments (this : DocumentService) : Prog (list string) :=
  await (ListDocuments (vectorStore this)).

(** ** The chunker *)

(** [text.slice(from, to)] for [0 <= from]: the characters at positions
    [from], ..., [to - 1] that exist. *)
Definition slice (text : string) (from to : nat) : string :=
  substring from (to - from) text.

(** Modelled from the spec: the Chunker of [services/documentProcessor],
    which is not among the sources.  Section 4.2: a chunk starts at the
    current offset and spans up to [chunkSize] characters; the chunk that
    reaches the end of the text is the final one and may be shorter; the
    next chunk starts [chunkSize - overlapSize] further, so that neighbours
    share [overlapSize] characters.  [fuel] bounds the number of chunks. *)
Fixpoint chunks_from (fuel : nat) (text : string) (chunkSize overlapSize start : nat)
  : list string :=
  match fuel with
  | O => []
  | S fuel' =>
      let stop := Nat.min (start + chunkSize) (String.length text) in
      slice text start stop ::
        (if (String.length text <=? start + chunkSize)%nat
         then []
         else chunks_from fuel' text chunkSize overlapSize
                (start + (chunkSize - overlapSize)))
  end.

(** Modelled from the spec: the Chunker's contract (section 4.2), with its
    [InvalidConfig] failure when [overlapSize >= chunkSize].  Every step
    advances by at least one character, so [length text + 1] steps are
    enough. *)
Definition chunkText (text : string) (chunkSize overlapSize : nat)
  : Outcome (list string) :=
  if (chunkSize <=? overlapSize)%nat
  then Rejected (ErrorObject "InvalidConfig")
  else Resolved (chunks_from (S (String.length text)) text chunkSize overlapSize 0).

(** [ceil(a / b)] for [b > 0]. *)
Definition ceil_div (a b : nat) : nat := (a + b - 1) / b.

(** The number of chunks still to come when the next one starts at offset
    [start] of a text of length [L]. *)
Definition remaining (L C O start : nat) : nat :=
  if (L <=? start + C)%nat then 1 else ceil_div (L - start - O) (C - O).

(** ** A test double for the collaborators *)

Module Mock.

(** The outside world: a clock and the points held by the vector store. *)
Record World := {
  clock : Z;
  points : list VectorRecord
}.

(** What the doubles answer. *)
Record Scenario := {
  parser : File -> ChunkOptions -> Outcome ProcessedDocument;
  embedder : list string -> Outcome (list EmbeddingVector);
  store_up : bool
}.

Definition tick (w : World) : World :=
  {| clock := clock w + 1; points := points w |}.

Definition upsert (docs : list VectorRecord) (w : World) : World :=
  {| clock := clock w;
     points := docs ++ filter (fun p => id p ∉ map id docs) (points w) |}.

Definition sources (w : World) : list string :=
  remove_dups (map (fun p => source (metadata (payload p))) (points w)).

Definition stats_of (fileName : string) (w : World) : option DocumentStats :=
  let mine := filter (fun p => source (metadata (payload p)) = fileName) (points w) in
  match mine with
  | [] => None
  | _ => Some {| fileName := fileName; fileSize := 0; totalChunks := length mine;
                 processingTime := clock w; status := Completed; error := None |}
  end.

Definition collaborators (s : Scenario) : Collaborators World :=
  {| processDocument := fun _ f o w => (parser s f o, tick w);
     embedDocuments := fun _ ts w => (embedder s ts, tick w);
     storeVectors := fun _ docs w =>
       if store_up s
       then (Resolved tt, tick (upsert docs w))
       else (Rejected (ErrorObject "StoreUnavailable"), tick w);
     vs_getDocumentStats := fun _ n w => (Resolved (stats_of n w), w);
     vs_listDocuments := fun _ w => (Resolved (sources w), w);
     Date_now := clock |}.

(** A parser for plain text that chunks the content with [chunkText]. *)
Definition text_parser (f : File) (o : ChunkOptions) : Outcome ProcessedDocument :=
  match chunkText (content f) (Z.to_nat (opt_chunkSize o)) (Z.to_nat (opt_overlapSize o)) with
  | Resolved cs => Resolved {| chunks := Some cs |}
  | Rejected e => Rejected e
  end.

(** A parser that finds nothing to chunk. *)
Definition empty_parser (f : File) (o : ChunkOptions) : Outcome ProcessedDocument :=
  Resolved {| chunks := Some [] |}.

(** One vector per text: its length, twice. *)
Definition length_embedder (ts : list string) : Outcome (list EmbeddingVector) :=
  Resolved (map (fun t => let x := PrimFloat.of_uint63 (Uint63.of_Z (Z.of_nat (String.length t)))
                          in [x; x]) ts).

(** An embedder that gives up after the first text. *)
Definition short_embedder (ts : list string) : Outcome (list EmbeddingVector) :=
  match length_embedder ts with
  | Resolved vs => Resolved (take 1 vs)
  | Rejected e => Rejected e
  end.

(** The embedding API fails all its retries. *)
Definition failing_embedder (ts : list string) : Outcome (list EmbeddingVector) :=
  Rejected (ErrorObject "EmbeddingFailure").

Definition healthy : Scenario :=
  {| parser := text_parser; embedder := length_embedder; store_up := true |}.

Definition truncating : Scenario :=
  {| parser := text_parser; embedder := short_embedder; store_up := true |}.

Definition api_down : Scenario :=
  {| parser := empty_parser; embedder := failing_embedder; store_up := true |}.

Definition nothing_to_chunk : Scenario :=
  {| parser := empty_parser; embedder := length_embedder; store_up := true |}.

Definition start : World := {| clock := 1700000000000; points := [] |}.

Definition service : DocumentService := new_DocumentService ∅.

Definition config : ProcessingConfig :=
  {| chunkSize := 10; overlapSize := 2; model := "mock-embedding-model" |}.

Definition notes : File :=
  {| name := "notes.txt"; size := 25; type := "text/plain";
     content := "abcdefghijklmnopqrstuvwxy" |}.

(** The chunks of [notes] under [config]. *)
Definition notes_chunks : ProcessedDocument :=
  {| chunks := Some ["abcdefghij"; "ijklmnopqr"; "qrstuvwxy"] |}.

Definition blank : File :=
  {| name := "blank.md"; size := 0; type := "text/markdown"; content := "" |}.

Definition picture : File :=
  {| name := "logo.png"; size := 4; type := "image/png"; content := "PNG!" |}.

(** A parser that throws [e]. *)
Definition throwing_parser (e : Thrown) (f : File) (o : ChunkOptions)
  : Outcome ProcessedDocument :=
  Rejected e.

(** An embedder that returns one vector too many. *)
Definition generous_embedder (ts : list string) : Outcome (list EmbeddingVector) :=
  match length_embedder ts with
  | Resolved vs => Resolved (vs ++ [[0%float]])%list
  | Rejected e => Rejected e
  end.

Definition parser_throws (e : Thrown) : Scenario :=
  {| parser := throwing_parser e; embedder := length_embedder; store_up := true |}.

Definition generous : Scenario :=
  {| parser := text_parser; embedder := generous_embedder; store_up := true |}.

Definition other_config : ProcessingConfig :=
  {| chunkSize := 10; overlapSize := 2; model := "text-embedding-3-large" |}.

Definition report : File :=
  {| name := "report-2024.txt"; size := 12; type := "text/plain";
     content := "twelve chars" |}.

End Mock.

(** ** Notions used by the statements *)

(** The supported MIME types, as section 6 of the specification lists them. *)
Definition supported_mime (t : string) : Prop :=
  t = "application/pdf" \/
  t = "text/plain" \/
  t = "text/markdown" \/
  t = "application/msword" \/
  t = "application/vnd.openxmlformats-officedocument.wordprocessingml.document".

(** [Failure sys this file config w e w']: in the run of [uploadDocument]
    started in world [w], one of the steps 1 to 4 fails; [e] is what it
    throws and [w'] the world at that moment. *)
Inductive Failure {World} (sys : Collaborators World) (this : DocumentService)
    (file : File) (config : ProcessingConfig) (w : World) : Thrown -> World -> Prop :=
| validation_fails :
    validateFile file = false ->
    Failure sys this file config w (ErrorObject unsupported_format) w
| parsing_fails e w1 :
    validateFile file = true ->
    processDocument sys (documentProcessor this) file (chunkOptions_of config) w
      = (Rejected e, w1) ->
    Failure sys this file config w e w1
| embedding_fails textChunks w1 e w2 :
    validateFile file = true ->
    processDocument sys (documentProcessor this) file (chunkOptions_of config) w
      = (Resolved textChunks, w1) ->
    embedDocuments sys (embeddingManager this) (textArray_of textChunks) w1
      = (Rejected e, w2) ->
    Failure sys this file config w e w2
| storing_fails textChunks w1 vectors w2 e w3 :
    validateFile file = true ->
    processDocument sys (documentProcessor this) file (chunkOptions_of config) w
      = (Resolved textChunks, w1) ->
    embedDocuments sys (embeddingManager this) (textArray_of textChunks) w1
      = (Resolved vectors, w2) ->
    storeVectors sys (vectorStore this)
      (vectorDocs_of file (textArray_of textChunks) vectors) w2
      = (Rejected e, w3) ->
    Failure sys this file config w e w3.

(** The answer of the Vector Store Adapter itself to the two read-path
    calls: the specification's reading of [getDocumentStats] and
    [listDocuments], one call on the adapter and nothing else. *)
Definition adapter_getDocumentStats {World} (sys : Collaborators World)
    (store : VectorStore) (fileName : string) (w : World)
  : Run World (option DocumentStats) :=
  let '(answer, w') := vs_getDocumentStats sys store fileName w in
  {| outcome := answer; final := w'; calls := [GetDocumentStats store fileName] |}.

Definition adapter_listDocuments {World} (sys : Collaborators World)
    (store : VectorStore) (w : World) : Run World (list string) :=
  let '(answer, w') := vs_listDocuments sys store w in
  {| outcome := answer; final := w'; calls := [ListDocuments store] |}.

(** [no_dash s]: the character [-] does not occur in [s]. *)
Fixpoint no_dash (s : string) : bool :=
  match s with
  | EmptyString => true
  | String c s' => negb (Ascii.eqb c "-"%char) && no_dash s'
  end.

(** ** Runs of composed programs *)

Section Runs.
Context {World : Type} (sys : Collaborators World).

(** A sequence runs its first part, and the rest only if the first part
    resolved. *)
Lemma run_bind {A B} (p : Prog A) (f : A -> Prog B) (w : World) :
  run sys (bind p f) w =
    match outcome (run sys p w) with
    | Resolved a =>
        let rest := run sys (f a) (final (run sys p w)) in
        {| outcome := outcome rest; final := final rest;
           calls := calls (run sys p w) ++ calls rest |}
    | Rejected e =>
        {| outcome := Rejected e; final := final (run sys p w);
           calls := calls (run sys p w) |}
    end.
Proof.
  revert w. induction p as [a | e | ev k IH]; intros w; simpl.
  - destruct (run sys (f a) w); reflexivity.
  - reflexivity.
  - destruct (handle sys ev w) as [r w']. rewrite IH. simpl.
    destruct (outcome (run sys (k r) w')); reflexivity.
Qed.

(** The handler runs exactly when the block rejects, in the world the
    block left. *)
Lemma run_try_catch {A} (p : Prog A) (h : Thrown -> Prog A) (w : World) :
  run sys (try_catch p h) w =
    match outcome (run sys p w) with
    | Resolved a => run sys p w
    | Rejected e =>
        let rest := run sys (h e) (final (run sys p w)) in
        {| outcome := outcome rest; final := final rest;
           calls := calls (run sys p w) ++ calls rest |}
    end.
Proof.
  revert w. induction p as [a | e | ev k IH]; intros w; simpl.
  - reflexivity.
  - destruct (run sys (h e) w); reflexivity.
  - destruct (handle sys ev w) as [r w']. rewrite IH.
    destruct (outcome (run sys (k r) w')) eqn:Ho; simpl; rewrite ?Ho; reflexivity.
Qed.

Lemma run_await (ev : Event) (w : World) :
  run sys (await ev) w =
    {| outcome := fst (handle sys ev w); final := snd (handle sys ev w);
       calls := [ev] |}.
Proof.
  unfold await. simpl. destruct (handle sys ev w) as [[x | e] w']; reflexivity.
Qed.

(** The [catch] block of [uploadDocument] reads the clock and resolves,
    unless what was thrown is null or undefined. *)
Lemma run_uploadDocument_catch (file : File) (e : Thrown) (w : World) :
  run sys (uploadDocument_catch file e) w =
    {| outcome :=
         match e with
         | ErrorObject m =>
             Resolved {| fileName := name file; fileSize := size file;
                         totalChunks := 0; processingTime := Date_now sys w;
                         status := Error; error := Some m |}
         | NoMessage =>
             Resolved {| fileName := name file; fileSize := size file;
                         totalChunks := 0; processingTime := Date_now sys w;
                         status := Error; error := None |}
         | Nullish v => Rejected (ErrorObject (nullish_message v))
         end;
       final := w;
       calls := [DateNow] |}.
Proof. destruct e; reflexivity. Qed.

(** The run of [uploadDocument], by the way its [try] block ends. *)
Lemma run_uploadDocument (this : DocumentService) (file : File)
    (config : ProcessingConfig) (w : World) :
  run sys (uploadDocument this file config) w =
    let body := run sys (uploadDocument_try this file config) w in
    match outcome body with
    | Resolved _ => body
    | Rejected e =>
        {| outcome := outcome (run sys (uploadDocument_catch file e) (final body));
           final := final body;
           calls := calls body ++ [DateNow] |}
    end.
Proof.
  unfold uploadDocument. rewrite run_try_catch. cbv zeta.
  destruct (outcome (run sys (uploadDocument_try this file config) w)); [reflexivity |].
  rewrite run_uploadDocument_catch. reflexivity.
Qed.

(** The [try] block, step by step. *)
Lemma run_try_unsupported this file config (w : World) :
  validateFile file = false ->
  run sys (uploadDocument_try this file config) w =
    {| outcome := Rejected (ErrorObject unsupported_format); final := w; calls := [] |}.
Proof. intros Hv. unfold uploadDocument_try. rewrite Hv. reflexivity. Qed.

Lemma run_try_parsing_fails this file config (w w1 : World) e :
  validateFile file = true ->
  processDocument sys (documentProcessor this) file (chunkOptions_of config) w
    = (Rejected e, w1) ->
  run sys (uploadDocument_try this file config) w =
    {| outcome := Rejected e; final := w1;
       calls := [ProcessDocument (documentProcessor this) file (chunkOptions_of config)] |}.
Proof.
  intros Hv Hp. unfold uploadDocument_try. rewrite Hv. simpl. rewrite Hp. reflexivity.
Qed.

Lemma run_try_embedding_fails this file config (w w1 w2 : World) textChunks e :
  validateFile file = true ->
  processDocument sys (documentProcessor this) file (chunkOptions_of config) w
    = (Resolved textChunks, w1) ->
  embedDocuments sys (embeddingManager this) (textArray_of textChunks) w1
    = (Rejected e, w2) ->
  run sys (uploadDocument_try this file config) w =
    {| outcome := Rejected e; final := w2;
       calls := [ProcessDocument (documentProcessor this) file (chunkOptions_of config);
                 EmbedDocuments (embeddingManager this) (textArray_of textChunks)] |}.
Proof.
  intros Hv Hp He. unfold uploadDocument_try. rewrite Hv. simpl. rewrite Hp. simpl.
  rewrite He. reflexivity.
Qed.

Lemma run_try_storing this file config (w w1 w2 w3 : World) textChunks vectors r :
  validateFile file = true ->
  processDocument sys (documentProcessor this) file (chunkOptions_of config) w
    = (Resolved textChunks, w1) ->
  embedDocuments sys (embeddingManager this) (textArray_of textChunks) w1
    = (Resolved vectors, w2) ->
  storeVectors sys (vectorStore this)
    (vectorDocs_of file (textArray_of textChunks) vectors) w2 = (r, w3) ->
  run sys (uploadDocument_try this file config) w =
    match r with
    | Resolved _ =>
        {| outcome := Resolved {| fileName := name file; fileSize := size file;
                                  totalChunks := length (textArray_of textChunks);
                                  processingTime := Date_now sys w3;
                                  status := Completed; error := None |};
           final := w3;
           calls := [ProcessDocument (documentProcessor this) file (chunkOptions_of config);
                     EmbedDocuments (embeddingManager this) (textArray_of textChunks);
                     StoreVectors (vectorStore this)
                       (vectorDocs_of file (textArray_of textChunks) vectors);
                     DateNow] |}
    | Rejected e =>
        {| outcome := Rejected e; final := w3;
           calls := [ProcessDocument (documentProcessor this) file (chunkOptions_of config);
                     EmbedDocuments (embeddingManager this) (textArray_of textChunks);
                     StoreVectors (vectorStore this)
                       (vectorDocs_of file (textArray_of textChunks) vectors)] |}
    end.
Proof.
  intros Hv Hp He Hs. unfold uploadDocument_try. rewrite Hv. simpl. rewrite Hp. simpl.
  rewrite He. simpl. rewrite Hs. destruct r; reflexivity.
Qed.

(** A failure of one of the four steps is a rejection of the [try] block,
    in the world of the failure. *)
Lemma Failure_rejects this file config (w w' : World) e :
  Failure sys this file config w e w' ->
  outcome (run sys (uploadDocument_try this file config) w) = Rejected e /\
  final (run sys (uploadDocument_try this file config) w) = w'.
Proof.
  intros HF. destruct HF as [Hv | e w1 Hv Hp | pd w1 e w2 Hv Hp He
                            | pd w1 vs w2 e w3 Hv Hp He Hs].
  - rewrite run_try_unsupported by assumption. split; reflexivity.
  - rewrite (run_try_parsing_fails _ _ _ _ _ _ Hv Hp). split; reflexivity.
  - rewrite (run_try_embedding_fails _ _ _ _ _ _ _ _ Hv Hp He). split; reflexivity.
  - rewrite (run_try_storing _ _ _ _ _ _ _ _ _ _ Hv Hp He Hs). split; reflexivity.
Qed.

End Runs.

(** ** The write path: [uploadDocument] *)

Section Upload.
Context {World : Type} (sys : Collaborators World).
Variables (this : DocumentService) (file : File) (config : ProcessingConfig).

Lemma validateFile_supported :
  validateFile file = true <-> supported_mime (type file).
Proof.
  unfold validateFile, allowedTypes, supported_mime. simpl.
  rewrite !orb_true_iff, !String.eqb_eq. intuition discriminate.
Qed.

(** C1.  Whatever step of [uploadDocument] fails (validation, parsing and
    chunking, embedding, storing) with an error carrying message [m], the
    call does not reject: it resolves to a [DocumentStats] with status
    [error], [m] in the [error] field, [totalChunks] 0, and the name and
    size of the input file. *)
Theorem uploadDocument_failure_is_reported (w w' : World) (m : string) :
  Failure sys this file config w (ErrorObject m) w' ->
  outcome (run sys (uploadDocument this file config) w) =
    Resolved {| fileName := name file; fileSize := size file; totalChunks := 0;
                processingTime := Date_now sys w'; status := Error;
                error := Some m |}.
Proof.
  intros HF. apply Failure_rejects in HF as [Ho Hw].
  rewrite run_uploadDocument. cbv zeta. rewrite Ho. simpl.
  rewrite Hw. reflexivity.
Qed.

(** C2.  A file passes validation exactly when its declared type is one of
    the five supported MIME types; then the first thing the run does is
    call the parser.  For every other type the run resolves at once to an
    [error] record: the clock is read, and no parser, embedding or store
    call is made. *)
Theorem uploadDocument_validates_mime_type (w : World) :
  (validateFile file = true <-> supported_mime (type file)) /\
  (supported_mime (type file) ->
   exists rest,
     calls (run sys (uploadDocument this file config) w) =
       ProcessDocument (documentProcessor this) file (chunkOptions_of config) :: rest) /\
  (~ supported_mime (type file) ->
   run sys (uploadDocument this file config) w =
     {| outcome := Resolved {| fileName := name file; fileSize := size file;
                               totalChunks := 0; processingTime := Date_now sys w;
                               status := Error; error := Some unsupported_format |};
        final := w;
        calls := [DateNow] |}).
Proof.
  split; [exact validateFile_supported |]. split.
  - intros Hs. apply validateFile_supported in Hs.
    unfold uploadDocument, uploadDocument_try. rewrite Hs. simpl.
    destruct (processDocument _ _ _ _ _) as [r w1]. simpl. eexists. reflexivity.
  - intros Hn.
    assert (Hv : validateFile file = false).
    { destruct (validateFile file) eqn:E; [| reflexivity].
      exfalso. apply Hn, validateFile_supported, E. }
    rewrite run_uploadDocument, (run_try_unsupported _ _ _ _ _ Hv). reflexivity.
Qed.

(** C3.  In a run that reaches the storage step with chunks [c_0 .. c_(n-1)]
    and vectors [v_0 .. v_(n-1)], the only [storeVectors] call receives
    exactly [n] records, the [i]-th being
    [{ id: "<fileName>-<i>", vector: v_i,
       payload: { text: c_i, metadata: { source: fileName, index: i } } }]. *)
Theorem uploadDocument_stores_one_record_per_chunk
    (w w1 w2 : World) (textChunks : ProcessedDocument) (vectors : list EmbeddingVector) :
  validateFile file = true ->
  processDocument sys (documentProcessor this) file (chunkOptions_of config) w
    = (Resolved textChunks, w1) ->
  embedDocuments sys (embeddingManager this) (textArray_of textChunks) w1
    = (Resolved vectors, w2) ->
  length vectors = length (textArray_of textChunks) ->
  exists docs : list VectorRecord,
    calls (run sys (uploadDocument this file config) w) =
      [ProcessDocument (documentProcessor this) file (chunkOptions_of config);
       EmbedDocuments (embeddingManager this) (textArray_of textChunks);
       StoreVectors (vectorStore this) docs;
       DateNow] /\
    length docs = length (textArray_of textChunks) /\
    forall (i : nat) (c : string) (v : EmbeddingVector),
      textArray_of textChunks !! i = Some c ->
      vectors !! i = Some v ->
      docs !! i =
        Some {| id := name file +:+ "-" +:+ pretty i;
                vector := Some v;
                payload := {| text := c;
                              metadata := {| source := name file; index := i |} |} |}.
Proof.
  intros Hv Hp He Hlen.
  exists (vectorDocs_of file (textArray_of textChunks) vectors). split; [| split].
  - destruct (storeVectors sys (vectorStore this)
                (vectorDocs_of file (textArray_of textChunks) vectors) w2) as [r w3] eqn:Hs.
    rewrite run_uploadDocument, (run_try_storing _ _ _ _ _ _ _ _ _ _ _ Hv Hp He Hs).
    destruct r; reflexivity.
  - apply length_imap.
  - intros i c v Hc Hvi. unfold vectorDocs_of. rewrite list_lookup_imap, Hc. simpl.
    unfold vectorDoc. rewrite Hvi. reflexivity.
Qed.

(** C4.  When every step succeeds, [uploadDocument] resolves to a record with
    status [completed], [totalChunks] the number of chunks of the
    document, and [processingTime] the end timestamp of the run: the
    clock read after [storeVectors] has resolved. *)
Theorem uploadDocument_success_stats
    (w w1 w2 w3 : World) (textChunks : ProcessedDocument) (vectors : list EmbeddingVector) :
  validateFile file = true ->
  processDocument sys (documentProcessor this) file (chunkOptions_of config) w
    = (Resolved textChunks, w1) ->
  embedDocuments sys (embeddingManager this) (textArray_of textChunks) w1
    = (Resolved vectors, w2) ->
  storeVectors sys (vectorStore this)
    (vectorDocs_of file (textArray_of textChunks) vectors) w2 = (Resolved tt, w3) ->
  exists st : DocumentStats,
    outcome (run sys (uploadDocument this file config) w) = Resolved st /\
    status st = Completed /\
    totalChunks st = length (textArray_of textChunks) /\
    (processingTime st = (Date_now sys w3 - Date_now sys w)%Z \/
     processingTime st = Date_now sys w3).
Proof.
  intros Hv Hp He Hs.
  rewrite run_uploadDocument, (run_try_storing _ _ _ _ _ _ _ _ _ _ _ Hv Hp He Hs).
  simpl. eexists. split; [reflexivity |]. simpl. auto.
Qed.

(** The time reported on success is the end timestamp, not a duration. *)
Lemma uploadDocument_success_run
    (w w1 w2 w3 : World) (textChunks : ProcessedDocument) (vectors : list EmbeddingVector) :
  validateFile file = true ->
  processDocument sys (documentProcessor this) file (chunkOptions_of config) w
    = (Resolved textChunks, w1) ->
  embedDocuments sys (embeddingManager this) (textArray_of textChunks) w1
    = (Resolved vectors, w2) ->
  storeVectors sys (vectorStore this)
    (vectorDocs_of file (textArray_of textChunks) vectors) w2 = (Resolved tt, w3) ->
  run sys (uploadDocument this file config) w =
    {| outcome := Resolved {| fileName := name file; fileSize := size file;
                              totalChunks := length (textArray_of textChunks);
                              processingTime := Date_now sys w3;
                              status := Completed; error := None |};
       final := w3;
       calls := [ProcessDocument (documentProcessor this) file (chunkOptions_of config);
                 EmbedDocuments (embeddingManager this) (textArray_of textChunks);
                 StoreVectors (vectorStore this)
                   (vectorDocs_of file (textArray_of textChunks) vectors);
                 DateNow] |}.
Proof.
  intros Hv Hp He Hs.
  rewrite run_uploadDocument, (run_try_storing _ _ _ _ _ _ _ _ _ _ _ Hv Hp He Hs).
  reflexivity.
Qed.

(** C6.  An empty chunk list is not an error: when parsing and chunking yield
    no chunk, the run proceeds like any other, the embedding manager and
    the store being called with empty lists, and with these two calls
    resolving it returns a [completed] record with [totalChunks] 0. *)
Theorem uploadDocument_empty_chunk_list
    (w w1 w2 w3 : World) (textChunks : ProcessedDocument) (vectors : list EmbeddingVector) :
  validateFile file = true ->
  processDocument sys (documentProcessor this) file (chunkOptions_of config) w
    = (Resolved textChunks, w1) ->
  textArray_of textChunks = [] ->
  embedDocuments sys (embeddingManager this) [] w1 = (Resolved vectors, w2) ->
  storeVectors sys (vectorStore this) [] w2 = (Resolved tt, w3) ->
  run sys (uploadDocument this file config) w =
    {| outcome := Resolved {| fileName := name file; fileSize := size file;
                              totalChunks := 0;
                              processingTime := Date_now sys w3;
                              status := Completed; error := None |};
       final := w3;
       calls := [ProcessDocument (documentProcessor this) file (chunkOptions_of config);
                 EmbedDocuments (embeddingManager this) [];
                 StoreVectors (vectorStore this) [];
                 DateNow] |}.
Proof.
  intros Hv Hp Hempty He Hs.
  rewrite (uploadDocument_success_run w w1 w2 w3 textChunks vectors Hv Hp);
    rewrite Hempty; try assumption; reflexivity.
Qed.

(** C9.  A [DocumentStats] that [uploadDocument] resolves to has status
    [completed] or [error].  The call resolves in every case but one:
    when a step throws null or undefined, reading [error.message] in the
    [catch] block throws an error in turn and the call rejects with it. *)
Theorem uploadDocument_status_terminal (w : World) :
  match outcome (run sys (uploadDocument this file config) w) with
  | Resolved st => status st = Completed \/ status st = Error
  | Rejected e =>
      (exists m, e = ErrorObject m) /\
      exists v,
        outcome (run sys (uploadDocument_try this file config) w) = Rejected (Nullish v)
  end.
Proof.
  rewrite run_uploadDocument. cbv zeta.
  destruct (outcome (run sys (uploadDocument_try this file config) w)) as [st | e] eqn:Ho.
  - rewrite Ho. left.
    revert Ho. unfold uploadDocument_try.
    destruct (validateFile file); simpl; [| discriminate].
    destruct (processDocument _ _ _ _ _) as [[pd | e1] w1]; simpl; [| discriminate].
    destruct (embedDocuments _ _ _ _) as [[vs | e2] w2]; simpl; [| discriminate].
    destruct (storeVectors _ _ _ _) as [[u | e3] w3]; simpl; [| discriminate].
    intros [= <-]. reflexivity.
  - rewrite run_uploadDocument_catch. simpl.
    destruct e as [m | | v]; simpl; auto.
    split; eexists; reflexivity.
Qed.

(** C10.  The lengths of the chunk list and of the vector list are never
    compared.  When [embedDocuments] resolves to fewer vectors than there
    are chunks, [storeVectors] still receives one record per chunk, the
    records past the end of the vector list have no vector, and if
    [storeVectors] accepts them the run is [completed]. *)
Theorem uploadDocument_short_vector_list
    (w w1 w2 w3 : World) (textChunks : ProcessedDocument) (vectors : list EmbeddingVector) :
  validateFile file = true ->
  processDocument sys (documentProcessor this) file (chunkOptions_of config) w
    = (Resolved textChunks, w1) ->
  embedDocuments sys (embeddingManager this) (textArray_of textChunks) w1
    = (Resolved vectors, w2) ->
  length vectors < length (textArray_of textChunks) ->
  storeVectors sys (vectorStore this)
    (vectorDocs_of file (textArray_of textChunks) vectors) w2 = (Resolved tt, w3) ->
  exists docs : list VectorRecord,
    calls (run sys (uploadDocument this file config) w) =
      [ProcessDocument (documentProcessor this) file (chunkOptions_of config);
       EmbedDocuments (embeddingManager this) (textArray_of textChunks);
       StoreVectors (vectorStore this) docs;
       DateNow] /\
    length docs = length (textArray_of textChunks) /\
    (forall i : nat,
       length vectors <= i < length (textArray_of textChunks) ->
       exists d : VectorRecord, docs !! i = Some d /\ vector d = None) /\
    outcome (run sys (uploadDocument this file config) w) =
      Resolved {| fileName := name file; fileSize := size file;
                  totalChunks := length (textArray_of textChunks);
                  processingTime := Date_now sys w3;
                  status := Completed; error := None |}.
Proof.
  intros Hv Hp He Hlen Hs.
  exists (vectorDocs_of file (textArray_of textChunks) vectors).
  rewrite (uploadDocument_success_run w w1 w2 w3 textChunks vectors Hv Hp He Hs). simpl.
  split; [reflexivity |]. split; [apply length_imap |]. split; [| reflexivity].
  intros i [Hlo Hhi].
  destruct (lookup_lt_is_Some_2 (textArray_of textChunks) i Hhi) as [c Hc].
  exists (vectorDoc file vectors i c). split.
  - unfold vectorDocs_of. rewrite list_lookup_imap, Hc. reflexivity.
  - simpl. apply lookup_ge_None_2. exact Hlo.
Qed.

End Upload.

(** ** The read path *)

(** C7.  In every state of the world, [getDocumentStats] and [listDocuments]
    of the service make the one corresponding call on the Vector Store
    Adapter and settle exactly as it does, leaving the world as the adapter
    left it. *)
Theorem read_path_delegates {World} (sys : Collaborators World)
    (this : DocumentService) (fileName : string) (w : World) :
  run sys (getDocumentStats this fileName) w
    = adapter_getDocumentStats sys (vectorStore this) fileName w /\
  run sys (listDocuments this) w
    = adapter_listDocuments sys (vectorStore this) w.
Proof.
  unfold getDocumentStats, listDocuments, adapter_getDocumentStats, adapter_listDocuments,
    await.
  simpl.
  destruct (vs_getDocumentStats sys (vectorStore this) fileName w) as [[stats | e1] w1];
    destruct (vs_listDocuments sys (vectorStore this) w) as [[names | e2] w2];
    split; reflexivity.
Qed.

(** ** The constructor *)

Lemma or_default_set (v d : string) : v <> "" -> or_default (Some v) d = v.
Proof.
  intros Hv. unfold or_default.
  destruct (String.eqb v "") eqn:E; [| reflexivity].
  apply String.eqb_eq in E. contradiction.
Qed.

(** C8.  The embedding manager is built from the three environment variables
    [DEEPSEEK_API_KEY], [DEEPSEEK_API_BASE] and [EMBEDDING_MODEL]; a
    variable that is unset is replaced by its default, ["mock-api-key"],
    ["https://api.deepseek.com"] and ["mock-embedding-model"]. *)
Theorem new_DocumentService_embedding_settings (env : Env) :
  let m := embeddingManager (new_DocumentService env) in
  (forall v, env !! "DEEPSEEK_API_KEY" = Some v -> v <> "" -> apiKey m = v) /\
  (env !! "DEEPSEEK_API_KEY" = None -> apiKey m = "mock-api-key") /\
  (forall v, env !! "DEEPSEEK_API_BASE" = Some v -> v <> "" -> baseURL m = v) /\
  (env !! "DEEPSEEK_API_BASE" = None -> baseURL m = "https://api.deepseek.com") /\
  (forall v, env !! "EMBEDDING_MODEL" = Some v -> v <> "" -> modelName m = v) /\
  (env !! "EMBEDDING_MODEL" = None -> modelName m = "mock-embedding-model").
Proof.
  simpl. repeat split.
  - intros v -> Hv. apply or_default_set, Hv.
  - intros ->. reflexivity.
  - intros v -> Hv. apply or_default_set, Hv.
  - intros ->. reflexivity.
  - intros v -> Hv. apply or_default_set, Hv.
  - intros ->. reflexivity.
Qed.

(** ** The chunker *)

(** [ceil_div a b] is the least [n] with [a <= n * b]. *)
Lemma ceil_div_least (a b n : nat) : 0 < b -> ceil_div a b <= n <-> a <= n * b.
Proof.
  intros Hb. unfold ceil_div.
  pose proof (Nat.div_mod_eq (a + b - 1) b) as Hd.
  pose proof (Nat.mod_upper_bound (a + b - 1) b ltac:(lia)) as Hm.
  split; intros H; nia.
Qed.

Lemma ceil_div_within (x d : nat) : 0 < x <= d -> ceil_div x d = 1.
Proof.
  intros [Hx Hd]. unfold ceil_div.
  replace (x + d - 1) with (x - 1 + 1 * d) by lia.
  rewrite Nat.div_add by lia. rewrite Nat.div_small by lia. reflexivity.
Qed.

Lemma ceil_div_beyond (x d : nat) :
  0 < d < x -> ceil_div x d = S (ceil_div (x - d) d).
Proof.
  intros [Hd Hx]. unfold ceil_div.
  replace (x + d - 1) with (x - d + d - 1 + 1 * d) by lia.
  rewrite Nat.div_add by lia. lia.
Qed.

(** [slice] is the JavaScript slice: its length, and its characters. *)
Lemma slice_length (s : string) (from to : nat) :
  String.length (slice s from to) = Nat.min (to - from) (String.length s - from).
Proof.
  unfold slice. generalize (to - from) as m. revert from.
  induction s as [| c s IH]; intros n m.
  - destruct n, m; reflexivity.
  - destruct n as [| n]; simpl.
    + destruct m as [| m]; simpl; [reflexivity |]. rewrite IH, Nat.sub_0_r. reflexivity.
    + apply IH.
Qed.

Lemma slice_get (s : string) (from to p : nat) :
  p < to - from -> String.get p (slice s from to) = String.get (p + from) s.
Proof. intros Hp. unfold slice. apply substring_correct1, Hp. Qed.

Section Chunker.
Variables (txt : string) (C O : nat).
Hypothesis overlap_lt_chunk : O < C.

Lemma remaining_step (start : nat) :
  start + C < String.length txt ->
  remaining (String.length txt) C O start
    = S (remaining (String.length txt) C O (start + (C - O))).
Proof.
  intros Hlt. unfold remaining.
  destruct (Nat.leb_spec (String.length txt) (start + C)) as [Hle | _]; [lia |].
  rewrite ceil_div_beyond by lia.
  destruct (Nat.leb_spec (String.length txt) (start + (C - O) + C)) as [Hle | Hgt].
  - rewrite ceil_div_within by lia. reflexivity.
  - f_equal. f_equal. lia.
Qed.

(** With enough fuel the loop stops by itself, after [remaining] chunks. *)
Lemma chunks_from_length (fuel start : nat) :
  String.length txt - start < fuel ->
  length (chunks_from fuel txt C O start) = remaining (String.length txt) C O start.
Proof.
  revert start. induction fuel as [| fuel IH]; intros start Hfuel; [lia |].
  simpl. destruct (Nat.leb_spec (String.length txt) (start + C)) as [Hle | Hgt].
  - unfold remaining.
    destruct (Nat.leb_spec (String.length txt) (start + C)); [reflexivity | lia].
  - rewrite remaining_step by assumption. simpl. f_equal. apply IH. lia.
Qed.

(** The [i]-th chunk produced from [start] begins [i] strides further. *)
Lemma chunks_from_lookup (fuel start i : nat) :
  i < length (chunks_from fuel txt C O start) ->
  chunks_from fuel txt C O start !! i =
    Some (slice txt (start + i * (C - O))
            (Nat.min (start + i * (C - O) + C) (String.length txt))).
Proof.
  revert start i. induction fuel as [| fuel IH]; intros start i; simpl; [lia |].
  destruct i as [| i]; simpl.
  - intros _. do 2 f_equal; lia.
  - destruct (String.length txt <=? start + C)%nat; simpl; [lia |].
    intros Hi. rewrite IH by lia. do 2 f_equal; lia.
Qed.

Lemma chunkText_resolves :
  chunkText txt C O = Resolved (chunks_from (S (String.length txt)) txt C O 0).
Proof. unfold chunkText. destruct (Nat.leb_spec C O); [lia | reflexivity]. Qed.

Lemma chunkText_length :
  length (chunks_from (S (String.length txt)) txt C O 0) =
    if (C <? String.length txt)%nat then ceil_div (String.length txt - O) (C - O) else 1.
Proof.
  rewrite chunks_from_length by lia. unfold remaining. simpl.
  destruct (Nat.leb_spec (String.length txt) C), (Nat.ltb_spec C (String.length txt));
    try lia; try reflexivity.
  f_equal. lia.
Qed.

(** C5.  For a text of length [L] and [0 <= O < C], the chunker returns
    [ceil((L - O) / (C - O))] chunks when [L > C] and one chunk otherwise,
    and its [i]-th chunk is the slice of the text that starts at offset
    [i * (C - O)] and spans [C] characters, clamped to [L]. *)
Theorem chunkText_count_and_content :
  exists cs : list string,
    chunkText txt C O = Resolved cs /\
    length cs =
      (if (C <? String.length txt)%nat
       then ceil_div (String.length txt - O) (C - O)
       else 1) /\
    forall i : nat,
      i < length cs ->
      cs !! i = Some (slice txt (i * (C - O))
                        (Nat.min (i * (C - O) + C) (String.length txt))).
Proof.
  exists (chunks_from (S (String.length txt)) txt C O 0). split; [| split].
  - exact chunkText_resolves.
  - exact chunkText_length.
  - intros i Hi. rewrite chunks_from_lookup by exact Hi. reflexivity.
Qed.

End Chunker.

(** The scenario of section 8: 2500 characters, [chunkSize] 1000 and
    [overlapSize] 200 give three chunks, at offsets 0, 800 and 1600. *)
Lemma chunkText_2500 (txt : string) :
  String.length txt = 2500 ->
  exists cs, chunkText txt 1000 200 = Resolved cs /\ length cs = 3.
Proof.
  intros HL. eexists. split.
  - apply chunkText_resolves. lia.
  - rewrite chunkText_length by lia. rewrite HL. reflexivity.
Qed.

(** ** Runs against the test double *)

(** The identifiers are the file name, a dash and the index in decimal. *)
Example vectorDocs_of_notes :
  map id (vectorDocs_of Mock.notes (textArray_of Mock.notes_chunks) []) =
    ["notes.txt-0"; "notes.txt-1"; "notes.txt-2"].
Proof. reflexivity. Qed.

(** An unsupported file is turned away before anything is called. *)
Lemma uploadDocument_validates_mime_type_witness :
  ~ supported_mime (type Mock.picture) /\
  run (Mock.collaborators Mock.healthy)
      (uploadDocument Mock.service Mock.picture Mock.config) Mock.start =
    {| outcome := Resolved {| fileName := "logo.png"; fileSize := 4; totalChunks := 0;
                              processingTime := 1700000000000; status := Error;
                              error := Some unsupported_format |};
       final := Mock.start;
       calls := [DateNow] |}.
Proof.
  assert (H : ~ supported_mime (type Mock.picture)).
  { unfold supported_mime. simpl. intuition discriminate. }
  split; [exact H |].
  exact (proj2 (proj2 (uploadDocument_validates_mime_type
                         (Mock.collaborators Mock.healthy) Mock.service Mock.picture
                         Mock.config Mock.start)) H).
Defined.

(** The embedding API is down: the failure comes back as an [error] record. *)
Lemma uploadDocument_failure_is_reported_witness :
  Failure (Mock.collaborators Mock.api_down) Mock.service Mock.blank Mock.config
    Mock.start (ErrorObject "EmbeddingFailure") (Mock.tick (Mock.tick Mock.start)) /\
  outcome (run (Mock.collaborators Mock.api_down)
             (uploadDocument Mock.service Mock.blank Mock.config) Mock.start) =
    Resolved {| fileName := "blank.md"; fileSize := 0; totalChunks := 0;
                processingTime := 1700000000002; status := Error;
                error := Some "EmbeddingFailure" |}.
Proof.
  assert (H : Failure (Mock.collaborators Mock.api_down) Mock.service Mock.blank
                Mock.config Mock.start (ErrorObject "EmbeddingFailure")
                (Mock.tick (Mock.tick Mock.start))).
  { apply (embedding_fails _ _ _ _ _ {| chunks := Some [] |} (Mock.tick Mock.start));
      reflexivity. }
  split; [exact H |].
  exact (uploadDocument_failure_is_reported (Mock.collaborators Mock.api_down)
           Mock.service Mock.blank Mock.config Mock.start
           (Mock.tick (Mock.tick Mock.start)) "EmbeddingFailure" H).
Defined.

(** An empty file with nothing to chunk: the run completes. *)
Lemma uploadDocument_empty_chunk_list_witness :
  run (Mock.collaborators Mock.nothing_to_chunk)
      (uploadDocument Mock.service Mock.blank Mock.config) Mock.start =
    {| outcome := Resolved {| fileName := "blank.md"; fileSize := 0; totalChunks := 0;
                              processingTime := 1700000000003; status := Completed;
                              error := None |};
       final := Mock.tick (Mock.tick (Mock.tick Mock.start));
       calls := [ProcessDocument new_DocumentProcessor Mock.blank
                   (chunkOptions_of Mock.config);
                 EmbedDocuments (embeddingManager Mock.service) [];
                 StoreVectors new_VectorStore [];
                 DateNow] |}.
Proof.
  apply (uploadDocument_empty_chunk_list (Mock.collaborators Mock.nothing_to_chunk)
           Mock.service Mock.blank Mock.config Mock.start (Mock.tick Mock.start)
           (Mock.tick (Mock.tick Mock.start))
           (Mock.tick (Mock.tick (Mock.tick Mock.start)))
           {| chunks := Some [] |} []);
    reflexivity.
Defined.

Lemma uploadDocument_stores_one_record_per_chunk_witness :
  exists docs : list VectorRecord,
    calls (run (Mock.collaborators Mock.healthy)
             (uploadDocument Mock.service Mock.notes Mock.config) Mock.start) =
      [ProcessDocument new_DocumentProcessor Mock.notes (chunkOptions_of Mock.config);
       EmbedDocuments (embeddingManager Mock.service) (textArray_of Mock.notes_chunks);
       StoreVectors new_VectorStore docs;
       DateNow] /\
    length docs = 3 /\
    forall (i : nat) (c : string) (v : EmbeddingVector),
      textArray_of Mock.notes_chunks !! i = Some c ->
      [[10%float; 10%float]; [10%float; 10%float]; [9%float; 9%float]] !! i = Some v ->
      docs !! i =
        Some {| id := "notes.txt" +:+ "-" +:+ pretty i;
                vector := Some v;
                payload := {| text := c;
                              metadata := {| source := "notes.txt"; index := i |} |} |}.
Proof.
  apply (uploadDocument_stores_one_record_per_chunk (Mock.collaborators Mock.healthy)
           Mock.service Mock.notes Mock.config Mock.start (Mock.tick Mock.start)
           (Mock.tick (Mock.tick Mock.start)) Mock.notes_chunks
           [[10%float; 10%float]; [10%float; 10%float]; [9%float; 9%float]]);
    reflexivity.
Defined.

Lemma uploadDocument_success_stats_witness :
  exists st : DocumentStats,
    outcome (run (Mock.collaborators Mock.healthy)
               (uploadDocument Mock.service Mock.notes Mock.config) Mock.start)
      = Resolved st /\
    status st = Completed /\
    totalChunks st = 3 /\
    (processingTime st = 3%Z \/ processingTime st = 1700000000003%Z).
Proof.
  apply (uploadDocument_success_stats (Mock.collaborators Mock.healthy)
           Mock.service Mock.notes Mock.config Mock.start (Mock.tick Mock.start)
           (Mock.tick (Mock.tick Mock.start))
           (Mock.tick (Mock.upsert
              (vectorDocs_of Mock.notes (textArray_of Mock.notes_chunks)
                 [[10%float; 10%float]; [10%float; 10%float]; [9%float; 9%float]])
              (Mock.tick (Mock.tick Mock.start))))
           Mock.notes_chunks
           [[10%float; 10%float]; [10%float; 10%float]; [9%float; 9%float]]);
    reflexivity.
Defined.

(** The embedder returns one vector for three chunks: three records are
    stored, the last two without a vector, and the run is [completed]. *)
Lemma uploadDocument_short_vector_list_witness :
  exists docs : list VectorRecord,
    calls (run (Mock.collaborators Mock.truncating)
             (uploadDocument Mock.service Mock.notes Mock.config) Mock.start) =
      [ProcessDocument new_DocumentProcessor Mock.notes (chunkOptions_of Mock.config);
       EmbedDocuments (embeddingManager Mock.service) (textArray_of Mock.notes_chunks);
       StoreVectors new_VectorStore docs;
       DateNow] /\
    length docs = 3 /\
    (forall i : nat,
       1 <= i < 3 -> exists d : VectorRecord, docs !! i = Some d /\ vector d = None) /\
    outcome (run (Mock.collaborators Mock.truncating)
               (uploadDocument Mock.service Mock.notes Mock.config) Mock.start) =
      Resolved {| fileName := "notes.txt"; fileSize := 25; totalChunks := 3;
                  processingTime := 1700000000003; status := Completed;
                  error := None |}.
Proof.
  apply (uploadDocument_short_vector_list (Mock.collaborators Mock.truncating)
           Mock.service Mock.notes Mock.config Mock.start (Mock.tick Mock.start)
           (Mock.tick (Mock.tick Mock.start))
           (Mock.tick (Mock.upsert
              (vectorDocs_of Mock.notes (textArray_of Mock.notes_chunks)
                 [[10%float; 10%float]])
              (Mock.tick (Mock.tick Mock.start))))
           Mock.notes_chunks [[10%float; 10%float]]);
    first [reflexivity | simpl; lia].
Defined.

Lemma chunkText_count_and_content_witness :
  2 < 10 /\
  exists cs : list string,
    chunkText (content Mock.notes) 10 2 = Resolved cs /\
    length cs = 3 /\
    forall i : nat,
      i < length cs ->
      cs !! i = Some (slice (content Mock.notes) (i * 8) (Nat.min (i * 8 + 10) 25)).
Proof.
  assert (H : 2 < 10) by lia.
  split; [exact H |].
  exact (chunkText_count_and_content (content Mock.notes) 10 2 H).
Defined.

Lemma new_DocumentService_embedding_settings_witness :
  let m := embeddingManager
             (new_DocumentService {[ "DEEPSEEK_API_KEY" := "sk-live" ]}) in
  apiKey m = "sk-live" /\
  baseURL m = "https://api.deepseek.com" /\
  modelName m = "mock-embedding-model".
Proof.
  intros m.
  destruct (new_DocumentService_embedding_settings {[ "DEEPSEEK_API_KEY" := "sk-live" ]})
    as (Hkey & _ & _ & Hbase & _ & Hmodel).
  split; [| split].
  - apply Hkey; [reflexivity | discriminate].
  - apply Hbase. reflexivity.
  - apply Hmodel. reflexivity.
Defined.

(** ** More on the write path *)

Section UploadRuns.
Context {World : Type} (sys : Collaborators World).
Variables (this : DocumentService) (file : File).

(** X1.  [uploadDocument] never reads [config.model]: two configurations with
    the same [chunkSize] and [overlapSize] give the same run, call for
    call, whatever their [model]. *)
Theorem uploadDocument_ignores_model (config config' : ProcessingConfig) (w : World) :
  chunkSize config = chunkSize config' ->
  overlapSize config = overlapSize config' ->
  run sys (uploadDocument this file config) w =
    run sys (uploadDocument this file config') w.
Proof.
  intros Hc Ho.
  assert (E : chunkOptions_of config = chunkOptions_of config').
  { unfold chunkOptions_of. rewrite Hc, Ho. reflexivity. }
  unfold uploadDocument, uploadDocument_try. rewrite E. reflexivity.
Qed.

Variable config : ProcessingConfig.

(** The four ways a run can go, with its calls. *)
Lemma uploadDocument_cases (w : World) :
  let r := run sys (uploadDocument this file config) w in
  let P := ProcessDocument (documentProcessor this) file (chunkOptions_of config) in
  (validateFile file = false /\ calls r = [DateNow]) \/
  (exists e w1,
     validateFile file = true /\
     processDocument sys (documentProcessor this) file (chunkOptions_of config) w
       = (Rejected e, w1) /\
     calls r = [P; DateNow]) \/
  (exists pd w1 e w2,
     validateFile file = true /\
     processDocument sys (documentProcessor this) file (chunkOptions_of config) w
       = (Resolved pd, w1) /\
     embedDocuments sys (embeddingManager this) (textArray_of pd) w1 = (Rejected e, w2) /\
     calls r = [P; EmbedDocuments (embeddingManager this) (textArray_of pd); DateNow]) \/
  (exists pd w1 vs w2,
     validateFile file = true /\
     processDocument sys (documentProcessor this) file (chunkOptions_of config) w
       = (Resolved pd, w1) /\
     embedDocuments sys (embeddingManager this) (textArray_of pd) w1 = (Resolved vs, w2) /\
     calls r = [P; EmbedDocuments (embeddingManager this) (textArray_of pd);
                StoreVectors (vectorStore this) (vectorDocs_of file (textArray_of pd) vs);
                DateNow]).
Proof.
  cbv zeta. rewrite run_uploadDocument. cbv zeta.
  destruct (validateFile file) eqn:Hv.
  2:{ left. rewrite (run_try_unsupported _ _ _ _ _ Hv). auto. }
  right.
  destruct (processDocument sys (documentProcessor this) file (chunkOptions_of config) w)
    as [[pd | e] w1] eqn:Hp.
  2:{ left. exists e, w1. rewrite (run_try_parsing_fails _ _ _ _ _ _ _ Hv Hp). auto. }
  right.
  destruct (embedDocuments sys (embeddingManager this) (textArray_of pd) w1)
    as [[vs | e] w2] eqn:He.
  2:{ left. exists pd, w1, e, w2.
      rewrite (run_try_embedding_fails _ _ _ _ _ _ _ _ _ Hv Hp He). auto. }
  right. exists pd, w1, vs, w2.
  destruct (storeVectors sys (vectorStore this)
              (vectorDocs_of file (textArray_of pd) vs) w2) as [r w3] eqn:Hs.
  rewrite (run_try_storing _ _ _ _ _ _ _ _ _ _ _ Hv Hp He Hs).
  destruct r; auto.
Qed.

(** X2.  Every run of [uploadDocument] calls the collaborators in the order
    parser, embedder, store, each at most once and each only after the one
    before it, and then reads the clock exactly once, as its last call; it
    never calls the read path of the store. *)
Theorem uploadDocument_call_order (w : World) :
  let r := run sys (uploadDocument this file config) w in
  let P := ProcessDocument (documentProcessor this) file (chunkOptions_of config) in
  calls r = [DateNow] \/
  calls r = [P; DateNow] \/
  (exists ts, calls r = [P; EmbedDocuments (embeddingManager this) ts; DateNow]) \/
  (exists ts docs,
     calls r = [P; EmbedDocuments (embeddingManager this) ts;
                StoreVectors (vectorStore this) docs; DateNow]).
Proof.
  cbv zeta.
  destruct (uploadDocument_cases w)
    as [[_ H] | [(e & w1 & _ & _ & H) | [(pd & w1 & e & w2 & _ & _ & _ & H)
                                        | (pd & w1 & vs & w2 & _ & _ & _ & H)]]];
    rewrite H; eauto 6.
Qed.

(** X3.  [storeVectors] is called only when the file was accepted and both
    [processDocument] and [embedDocuments] resolved, and then with the
    records built from their two results: a failed embedding never reaches
    the store. *)
Theorem storeVectors_only_after_embedding (w : World) (s : VectorStore)
    (docs : list VectorRecord) :
  StoreVectors s docs ∈ calls (run sys (uploadDocument this file config) w) ->
  validateFile file = true /\
  exists pd w1 vs w2,
    processDocument sys (documentProcessor this) file (chunkOptions_of config) w
      = (Resolved pd, w1) /\
    embedDocuments sys (embeddingManager this) (textArray_of pd) w1 = (Resolved vs, w2) /\
    s = vectorStore this /\
    docs = vectorDocs_of file (textArray_of pd) vs.
Proof.
  intros Hin.
  destruct (uploadDocument_cases w)
    as [[_ H] | [(e & w1 & _ & _ & H) | [(pd & w1 & e & w2 & _ & _ & _ & H)
                                        | (pd & w1 & vs & w2 & Hv & Hp & He & H)]]];
    cbv zeta in H; rewrite H in Hin;
    rewrite ?elem_of_cons, elem_of_nil in Hin.
  - intuition discriminate.
  - intuition discriminate.
  - intuition discriminate.
  - destruct Hin as [Hd | [Hd | [Hd | [Hd | []]]]]; try discriminate Hd.
    inversion Hd; subst. split; [exact Hv |]. exists pd, w1, vs, w2.
    repeat split; try assumption. destruct s, (vectorStore this); reflexivity.
Qed.

(** X4.  When the failing step throws a value that is neither null nor
    undefined and has no [message] (a thrown string, say), the call still
    resolves to an [error] record, whose [error] field is undefined. *)
Theorem uploadDocument_failure_without_message (w w' : World) :
  Failure sys this file config w NoMessage w' ->
  outcome (run sys (uploadDocument this file config) w) =
    Resolved {| fileName := name file; fileSize := size file; totalChunks := 0;
                processingTime := Date_now sys w'; status := Error; error := None |}.
Proof.
  intros HF. apply Failure_rejects in HF as [Ho Hw].
  rewrite run_uploadDocument. cbv zeta. rewrite Ho. simpl.
  rewrite Hw. reflexivity.
Qed.

(** X5.  When the failing step throws [null] or [undefined], reading
    [error.message] in the [catch] block throws a [TypeError]: the call
    rejects instead of returning an [error] record, after having read the
    clock. *)
Theorem uploadDocument_rejects_on_nullish (w w' : World) (v : NullishValue) :
  Failure sys this file config w (Nullish v) w' ->
  let r := run sys (uploadDocument this file config) w in
  (exists m, outcome r = Rejected (ErrorObject m)) /\
  final r = w' /\
  last (calls r) = Some DateNow.
Proof.
  intros HF. apply Failure_rejects in HF as [Ho Hw].
  cbv zeta. rewrite run_uploadDocument. cbv zeta. rewrite Ho. simpl.
  split; [eexists; reflexivity |]. split; [exact Hw |].
  apply last_snoc.
Qed.

(** X10.  Whatever happens, a record that [uploadDocument] resolves to carries
    the name and the size of the input file and, as [processingTime], the
    clock at the end of the run; a [completed] record has no [error]
    field and an [error] record has [totalChunks] 0. *)
Theorem uploadDocument_result_invariant (w : World) (st : DocumentStats) :
  outcome (run sys (uploadDocument this file config) w) = Resolved st ->
  fileName st = name file /\
  fileSize st = size file /\
  processingTime st = Date_now sys (final (run sys (uploadDocument this file config) w)) /\
  (status st = Completed -> error st = None) /\
  (status st = Error -> totalChunks st = 0).
Proof.
  rewrite run_uploadDocument. cbv zeta.
  destruct (outcome (run sys (uploadDocument_try this file config) w)) as [st' | e] eqn:Ho.
  - rewrite Ho. intros [= ->]. revert Ho. unfold uploadDocument_try.
    destruct (validateFile file); simpl; [| discriminate].
    destruct (processDocument _ _ _ _ _) as [[pd | e1] w1]; simpl; [| discriminate].
    destruct (embedDocuments _ _ _ _) as [[vs | e2] w2]; simpl; [| discriminate].
    destruct (storeVectors _ _ _ _) as [[u | e3] w3]; simpl; [| discriminate].
    intros [= <-]. simpl. repeat split; discriminate.
  - rewrite run_uploadDocument_catch. simpl.
    destruct e; intros [= <-]; simpl; repeat split; discriminate.
Qed.

End UploadRuns.

(** ** The records handed to the store *)

Lemma no_dash_pretty_N_go (x : N) (s : string) :
  no_dash s = true -> no_dash (pretty_N_go x s) = true.
Proof.
  revert s. induction (N.lt_wf_0 x) as [x _ IH]; intros s Hs.
  assert (x = 0 \/ 0 < x)%N as [-> | Hx] by lia.
  - rewrite pretty_N_go_0. exact Hs.
  - rewrite pretty_N_go_step by exact Hx. apply IH.
    + apply N.div_lt; lia.
    + simpl. rewrite Hs. unfold pretty_N_char. repeat case_match; reflexivity.
Qed.

(** The decimal form of an index has no dash. *)
Lemma no_dash_pretty (n : nat) : no_dash (pretty n) = true.
Proof.
  unfold pretty, pretty_nat, pretty, pretty_N.
  case_decide; [reflexivity |]. apply no_dash_pretty_N_go. reflexivity.
Qed.

Lemma no_dash_after_dash (a b : string) : no_dash (a +:+ "-" +:+ b) = false.
Proof.
  induction a as [| c a IH]; simpl; [reflexivity |].
  rewrite IH. apply andb_false_r.
Qed.

(** A string splits in one way only at its last dash. *)
Lemma split_at_last_dash (n1 n2 d1 d2 : string) :
  no_dash d1 = true -> no_dash d2 = true ->
  n1 +:+ "-" +:+ d1 = n2 +:+ "-" +:+ d2 ->
  n1 = n2 /\ d1 = d2.
Proof.
  intros H1 H2. revert n2.
  induction n1 as [| c n1 IH]; intros [| c2 n2] E.
  - injection E as E. change (d1 = d2) in E. split; [reflexivity | exact E].
  - injection E as _ E. change (d1 = n2 +:+ "-" +:+ d2) in E.
    rewrite E, no_dash_after_dash in H1. discriminate.
  - injection E as _ E. change (n1 +:+ "-" +:+ d1 = d2) in E.
    rewrite <- E, no_dash_after_dash in H2. discriminate.
  - injection E as -> E. destruct (IH _ E) as [-> ->]. split; reflexivity.
Qed.

(** X6.  A record's [id] determines the file name and the chunk index it was
    built from: records of two uploads have the same [id] only if the two
    files have the same name and the chunks the same index. *)
Theorem vectorDoc_id_inj (file1 file2 : File) (vectors1 vectors2 : list EmbeddingVector)
    (i j : nat) (text1 text2 : string) :
  id (vectorDoc file1 vectors1 i text1) = id (vectorDoc file2 vectors2 j text2) ->
  name file1 = name file2 /\ i = j.
Proof.
  unfold vectorDoc. simpl. intros E.
  apply split_at_last_dash in E as [Hn Hp]; auto using no_dash_pretty.
  split; [exact Hn |]. apply (inj pretty), Hp.
Qed.

(** X7.  The records of one upload have pairwise distinct [id]s, whatever the
    chunks and the vectors are. *)
Theorem vectorDocs_ids_distinct (file : File) (textArray : list string)
    (vectors : list EmbeddingVector) :
  NoDup (map id (vectorDocs_of file textArray vectors)).
Proof.
  apply NoDup_alt. intros i j x Hi Hj.
  unfold vectorDocs_of in Hi, Hj.
  rewrite list_lookup_fmap, list_lookup_imap in Hi, Hj.
  destruct (textArray !! i) as [ti |]; [| discriminate].
  destruct (textArray !! j) as [tj |]; [| discriminate].
  simpl in Hi, Hj. injection Hi as Hi. injection Hj as Hj.
  rewrite <- Hj in Hi.
  apply split_at_last_dash in Hi as [_ Hp]; auto using no_dash_pretty.
  apply (inj pretty), Hp.
Qed.

(** X8.  Whatever [embedDocuments] returned, the records carry the chunk
    texts unchanged and in order, the indices [0 .. n-1], and the file name
    as [source]. *)
Theorem vectorDocs_payloads (file : File) (textArray : list string)
    (vectors : list EmbeddingVector) :
  map (fun d => text (payload d)) (vectorDocs_of file textArray vectors) = textArray /\
  map (fun d => index (metadata (payload d))) (vectorDocs_of file textArray vectors)
    = seq 0 (length textArray) /\
  Forall (fun d => source (metadata (payload d)) = name file)
    (vectorDocs_of file textArray vectors).
Proof.
  split; [| split].
  - apply list_eq. intros i. unfold vectorDocs_of.
    rewrite list_lookup_fmap, list_lookup_imap.
    destruct (textArray !! i); reflexivity.
  - apply list_eq. intros i. unfold vectorDocs_of.
    rewrite list_lookup_fmap, list_lookup_imap.
    destruct (textArray !! i) as [t |] eqn:Ht; simpl.
    + symmetry. apply lookup_seq. split; [reflexivity |].
      apply lookup_lt_Some in Ht. exact Ht.
    + symmetry. apply lookup_seq_ge. apply lookup_ge_None in Ht. lia.
  - apply Forall_forall. intros d Hd. unfold vectorDocs_of in Hd.
    apply list_elem_of_lookup in Hd as [i Hi].
    rewrite list_lookup_imap in Hi.
    destruct (textArray !! i); [| discriminate]. injection Hi as <-. reflexivity.
Qed.

(** X9.  When [embedDocuments] returns more vectors than there are chunks,
    the surplus is dropped silently: the records carry the first [n]
    vectors, and the run completes with [totalChunks] [n] if the store
    accepts them. *)
Theorem uploadDocument_surplus_vectors {World} (sys : Collaborators World)
    (this : DocumentService) (file : File) (config : ProcessingConfig)
    (w w1 w2 w3 : World) (textChunks : ProcessedDocument) (vectors : list EmbeddingVector) :
  validateFile file = true ->
  processDocument sys (documentProcessor this) file (chunkOptions_of config) w
    = (Resolved textChunks, w1) ->
  embedDocuments sys (embeddingManager this) (textArray_of textChunks) w1
    = (Resolved vectors, w2) ->
  length (textArray_of textChunks) <= length vectors ->
  storeVectors sys (vectorStore this)
    (vectorDocs_of file (textArray_of textChunks) vectors) w2 = (Resolved tt, w3) ->
  exists docs : list VectorRecord,
    calls (run sys (uploadDocument this file config) w) =
      [ProcessDocument (documentProcessor this) file (chunkOptions_of config);
       EmbedDocuments (embeddingManager this) (textArray_of textChunks);
       StoreVectors (vectorStore this) docs;
       DateNow] /\
    map vector docs = map Some (take (length (textArray_of textChunks)) vectors) /\
    outcome (run sys (uploadDocument this file config) w) =
      Resolved {| fileName := name file; fileSize := size file;
                  totalChunks := length (textArray_of textChunks);
                  processingTime := Date_now sys w3;
                  status := Completed; error := None |}.
Proof.
  intros Hv Hp He Hlen Hs.
  exists (vectorDocs_of file (textArray_of textChunks) vectors).
  rewrite (uploadDocument_success_run sys this file config w w1 w2 w3 textChunks vectors
             Hv Hp He Hs). simpl.
  split; [reflexivity |]. split; [| reflexivity].
  apply list_eq. intros i. unfold vectorDocs_of.
  rewrite !list_lookup_fmap, list_lookup_imap.
  destruct (textArray_of textChunks !! i) as [t |] eqn:Ht; simpl.
  - apply lookup_lt_Some in Ht. rewrite lookup_take_lt by exact Ht.
    destruct (lookup_lt_is_Some_2 vectors i ltac:(lia)) as [v Hvi].
    rewrite Hvi. reflexivity.
  - apply lookup_ge_None in Ht. rewrite lookup_take_ge by exact Ht. reflexivity.
Qed.

(** ** More on the constructor *)

(** X11.  An environment variable that is set to the empty string counts as
    unset: the default is used. *)
Theorem new_DocumentService_empty_setting (env : Env) :
  let m := embeddingManager (new_DocumentService env) in
  (env !! "DEEPSEEK_API_KEY" = Some "" -> apiKey m = "mock-api-key") /\
  (env !! "DEEPSEEK_API_BASE" = Some "" -> baseURL m = "https://api.deepseek.com") /\
  (env !! "EMBEDDING_MODEL" = Some "" -> modelName m = "mock-embedding-model").
Proof.
  simpl. repeat split; intros ->; reflexivity.
Qed.

(** ** More runs against the test double *)

Lemma uploadDocument_ignores_model_witness :
  model Mock.config <> model Mock.other_config /\
  run (Mock.collaborators Mock.healthy)
      (uploadDocument Mock.service Mock.notes Mock.config) Mock.start =
    run (Mock.collaborators Mock.healthy)
      (uploadDocument Mock.service Mock.notes Mock.other_config) Mock.start.
Proof.
  split; [discriminate |].
  apply (uploadDocument_ignores_model (Mock.collaborators Mock.healthy) Mock.service
           Mock.notes Mock.config Mock.other_config Mock.start);
    reflexivity.
Defined.

Lemma storeVectors_only_after_embedding_witness :
  validateFile Mock.notes = true /\
  exists pd w1 vs w2,
    processDocument (Mock.collaborators Mock.healthy) (documentProcessor Mock.service)
      Mock.notes (chunkOptions_of Mock.config) Mock.start = (Resolved pd, w1) /\
    embedDocuments (Mock.collaborators Mock.healthy) (embeddingManager Mock.service)
      (textArray_of pd) w1 = (Resolved vs, w2) /\
    new_VectorStore = vectorStore Mock.service /\
    vectorDocs_of Mock.notes (textArray_of Mock.notes_chunks)
      [[10%float; 10%float]; [10%float; 10%float]; [9%float; 9%float]]
      = vectorDocs_of Mock.notes (textArray_of pd) vs.
Proof.
  apply (storeVectors_only_after_embedding (Mock.collaborators Mock.healthy)
           Mock.service Mock.notes Mock.config Mock.start).
  apply (list_elem_of_lookup_2 _ 2). reflexivity.
Defined.

(** The parser throws a string: the record has no [error] field. *)
Lemma uploadDocument_failure_without_message_witness :
  outcome (run (Mock.collaborators (Mock.parser_throws NoMessage))
             (uploadDocument Mock.service Mock.report Mock.config) Mock.start) =
    Resolved {| fileName := "report-2024.txt"; fileSize := 12; totalChunks := 0;
                processingTime := 1700000000001; status := Error; error := None |}.
Proof.
  apply (uploadDocument_failure_without_message
           (Mock.collaborators (Mock.parser_throws NoMessage))
           Mock.service Mock.report Mock.config Mock.start (Mock.tick Mock.start)).
  apply parsing_fails; reflexivity.
Defined.

(** The parser throws [null]: the upload itself rejects. *)
Lemma uploadDocument_rejects_on_nullish_witness :
  let r := run (Mock.collaborators (Mock.parser_throws (Nullish JsNull)))
             (uploadDocument Mock.service Mock.report Mock.config) Mock.start in
  (exists m, outcome r = Rejected (ErrorObject m)) /\
  final r = Mock.tick Mock.start /\
  last (calls r) = Some DateNow.
Proof.
  apply (uploadDocument_rejects_on_nullish
           (Mock.collaborators (Mock.parser_throws (Nullish JsNull)))
           Mock.service Mock.report Mock.config Mock.start (Mock.tick Mock.start)
           JsNull).
  apply parsing_fails; reflexivity.
Defined.

(** The same report, uploaded again after an edit: same identifier. *)
Lemma vectorDoc_id_inj_witness :
  name Mock.report = "report-2024.txt" /\ 0 = 0.
Proof.
  apply (vectorDoc_id_inj Mock.report
           {| name := "report-2024.txt"; size := 6; type := "text/plain";
              content := "edited" |}
           [] [[6%float; 6%float]] 0 0 "twelve chars" "edited").
  reflexivity.
Defined.

(** Four vectors for three chunks: the fourth is dropped. *)
Lemma uploadDocument_surplus_vectors_witness :
  exists docs : list VectorRecord,
    calls (run (Mock.collaborators Mock.generous)
             (uploadDocument Mock.service Mock.notes Mock.config) Mock.start) =
      [ProcessDocument new_DocumentProcessor Mock.notes (chunkOptions_of Mock.config);
       EmbedDocuments (embeddingManager Mock.service) (textArray_of Mock.notes_chunks);
       StoreVectors new_VectorStore docs;
       DateNow] /\
    map vector docs =
      [Some [10%float; 10%float]; Some [10%float; 10%float]; Some [9%float; 9%float]] /\
    outcome (run (Mock.collaborators Mock.generous)
               (uploadDocument Mock.service Mock.notes Mock.config) Mock.start) =
      Resolved {| fileName := "notes.txt"; fileSize := 25; totalChunks := 3;
                  processingTime := 1700000000003; status := Completed;
                  error := None |}.
Proof.
  apply (uploadDocument_surplus_vectors (Mock.collaborators Mock.generous)
           Mock.service Mock.notes Mock.config Mock.start (Mock.tick Mock.start)
           (Mock.tick (Mock.tick Mock.start))
           (Mock.tick (Mock.upsert
              (vectorDocs_of Mock.notes (textArray_of Mock.notes_chunks)
                 [[10%float; 10%float]; [10%float; 10%float]; [9%float; 9%float];
                  [0%float]])
              (Mock.tick (Mock.tick Mock.start))))
           Mock.notes_chunks
           [[10%float; 10%float]; [10%float; 10%float]; [9%float; 9%float]; [0%float]]);
    first [reflexivity | simpl; lia].
Defined.

Lemma uploadDocument_result_invariant_witness :
  let st := {| fileName := "blank.md"; fileSize := 0; totalChunks := 0;
               processingTime := 1700000000002; status := Error;
               error := Some "EmbeddingFailure" |} in
  fileName st = name Mock.blank /\
  fileSize st = size Mock.blank /\
  processingTime st = 1700000000002%Z /\
  (status st = Completed -> error st = None) /\
  (status st = Error -> totalChunks st = 0).
Proof.
  intros st.
  apply (uploadDocument_result_invariant (Mock.collaborators Mock.api_down)
           Mock.service Mock.blank Mock.config Mock.start st).
  reflexivity.
Defined.

Lemma new_DocumentService_empty_setting_witness :
  let m := embeddingManager
             (new_DocumentService
                (<[ "DEEPSEEK_API_KEY" := "" ]>
                   (<[ "DEEPSEEK_API_BASE" := "" ]> {[ "EMBEDDING_MODEL" := "" ]}))) in
  apiKey m = "mock-api-key" /\
  baseURL m = "https://api.deepseek.com" /\
  modelName m = "mock-embedding-model".
Proof.
  intros m.
  destruct (new_DocumentService_empty_setting
              (<[ "DEEPSEEK_API_KEY" := "" ]>
                 (<[ "DEEPSEEK_API_BASE" := "" ]> {[ "EMBEDDING_MODEL" := "" ]})))
    as (Hkey & Hbase & Hmodel).
  split; [| split].
  - apply Hkey. reflexivity.
  - apply Hbase. reflexivity.
  - apply Hmodel. reflexivity.
Defined.
